(** * fatal/type/pair.h: the compile-time [type_pair]

    A shallow embedding of the template metaprogram of [fatal/type/pair.h].
    C++ types are values of [cpp_type]; a template passed as a template
    template argument is the function that instantiates it; an alias
    (a [using] declaration) is a function from the template arguments in
    scope to the type it names. A construct the compiler refuses is a
    [Rejected] result carrying the diagnostic. *)

From Stdlib Require Import String List Arith NArith Bool Lia.
Import ListNotations.
Open Scope string_scope.

#[local] Set Warnings "-register-all".

Module fatal.

(** ** Types and compilation results *)

(** A C++ type: a non-template type named by its spelling ([int], [bool]),
    or the specialization [name<args...>] of a class template. *)
Inductive cpp_type : Type :=
| builtin (name : string)
| class_spec (name : string) (args : list cpp_type).

(** Why the compiler refuses a construct. *)
Inductive diagnostic : Type :=
| static_assert_failed (message : string)
| invalid_template_id.

(** The outcome of resolving a type expression at compile time. *)
Inductive compiled (A : Type) : Type :=
| Resolved (a : A)
| Rejected (d : diagnostic).

Arguments Resolved {A} a.
Arguments Rejected {A} d.

Definition bind {A B : Type} (c : compiled A) (k : A -> compiled B) : compiled B :=
  match c with
  | Resolved a => k a
  | Rejected d => Rejected d
  end.

Notation "x <- c ;; k" := (bind c (fun x => k))
  (at level 61, c at next level, right associativity).
Notation "c ;;; k" := (bind c (fun _ => k))
  (at level 61, right associativity).

(** [static_assert(cond, message)]. *)
Definition static_assert (cond : bool) (message : string) : compiled unit :=
  if cond then Resolved tt else Rejected (static_assert_failed message).

(** [std::conditional<B, T, F>::type]. *)
Definition conditional (B : bool) (T F : cpp_type) : cpp_type :=
  if B then T else F.

(** An argument for a parameter [template <typename...> class T]: a class
    template or an alias template, given by what [T<args...>] denotes.
    The parameter is variadic, so templates of any number of type
    parameters are accepted as arguments; naming [T<args...>] with
    arguments the template does not take is refused. *)
Definition template : Type := list cpp_type -> compiled cpp_type.

(** A class template with [params] type parameters: [name<args...>] names
    its specialization when [args] has that many types. *)
Definition class_template (name : string) (params : nat) : template :=
  fun args =>
    if Nat.eqb (length args) params
    then Resolved (class_spec name args)
    else Rejected invalid_template_id.

(** Modelled from the spec: [identity_transform] is declared in
    [fatal/type/transform.h], which is not part of the sources at hand.
    It is the transform that maps a type to itself: with it as the default
    the operations below use each slot unchanged, and [transform<>]
    "behaves as an identity function". *)
Definition identity_transform : template :=
  fun args =>
    match args with
    | [T] => Resolved T
    | _ => Rejected invalid_template_id
    end.

(** A template parameter declared with the default [= identity_transform]:
    [None] when the argument is omitted. *)
Definition or_identity (F : option template) : template :=
  match F with
  | Some F' => F'
  | None => identity_transform
  end.

(** ** [template <typename TFirst, typename TSecond> struct type_pair] *)

(** A specialization [type_pair<TFirst, TSecond>], by its template
    arguments. *)
Record type_pair : Type := TypePair { TFirst : cpp_type; TSecond : cpp_type }.

(** The specialization as a type, for use as a template argument. *)
Definition as_type (p : type_pair) : cpp_type :=
  class_spec "fatal::type_pair" [TFirst p; TSecond p].

(** The kinds of declaration a class can hold. *)
Inductive member_kind : Type :=
| type_alias
| alias_template
| data_member
| member_function.

(** The members [struct type_pair] declares, in order. *)
Definition type_pair_members : list (string * member_kind) :=
  [ ("first", type_alias);
    ("second", type_alias);
    ("invert", type_alias);
    ("apply", alias_template);
    ("transform", alias_template) ].

(** [using first = TFirst;] *)
Definition first (p : type_pair) : cpp_type := TFirst p.

(** [using second = TSecond;] *)
Definition second (p : type_pair) : cpp_type := TSecond p.

(** [using invert = type_pair<TSecond, TFirst>;] *)
Definition invert (p : type_pair) : type_pair :=
  TypePair (TSecond p) (TFirst p).

(** [template <T, TFirstTransform = identity_transform,
              TSecondTransform = identity_transform>
     using apply = T<TFirstTransform<first>, TSecondTransform<second>>;] *)
Definition apply (T : template) (TFirstTransform TSecondTransform : option template)
    (p : type_pair) : compiled cpp_type :=
  a <- or_identity TFirstTransform [first p] ;;
  b <- or_identity TSecondTransform [second p] ;;
  T [a; b].

(** [template <TFirstTransform = identity_transform,
              TSecondTransform = identity_transform>
     using transform
       = type_pair<TFirstTransform<first>, TSecondTransform<second>>;] *)
Definition transform (TFirstTransform TSecondTransform : option template)
    (p : type_pair) : compiled type_pair :=
  a <- or_identity TFirstTransform [first p] ;;
  b <- or_identity TSecondTransform [second p] ;;
  Resolved (TypePair a b).

(** ** [template <TFirstTransform, TSecondTransform> struct type_pair_from] *)

(** [template <typename U>
     using type = type_pair<TFirstTransform<U>, TSecondTransform<U>>;]
    inside [type_pair_from<TFirstTransform, TSecondTransform>], both
    parameters defaulted to [identity_transform]. *)
Definition type_pair_from_type (TFirstTransform TSecondTransform : option template)
    (U : cpp_type) : compiled type_pair :=
  a <- or_identity TFirstTransform [U] ;;
  b <- or_identity TSecondTransform [U] ;;
  Resolved (TypePair a b).

(** ** [type_get_traits<type_pair<TFirst, TSecond>, Index>] *)

(** The member [type] of the specialization. [Index] is a [std::size_t],
    an unsigned integer; the [static_assert] of the class body guards the
    whole specialization.
<<
    static_assert(Index < 2, "index out of bounds");
    using type = typename std::conditional<Index == 0, TFirst, TSecond>::type;
>> *)
Definition type_get_traits (p : type_pair) (Index : N) : compiled cpp_type :=
  static_assert (Index <? 2)%N "index out of bounds" ;;;
  Resolved (conditional (Index =? 0)%N (TFirst p) (TSecond p)).

(** ** Templates used as arguments *)

(** The class template [type_pair] itself, passed as a template template
    argument: it takes two types. *)
Definition type_pair_template : template :=
  class_template "fatal::type_pair" 2.

(** The alias template [template <typename... Args>
    using H = Outer<Inner<Args...>>;], one transform after another. *)
Definition compose_transform (Outer Inner : template) : template :=
  fun args => t <- Inner args ;; Outer [t].

End fatal.

Import fatal.

(** ** The types of the examples in the documentation of [pair.h] *)

Definition int : cpp_type := builtin "int".
Definition bool_ : cpp_type := builtin "bool".
Definition double : cpp_type := builtin "double".
Definition std_pair : template := class_template "std::pair" 2.
Definition Foo : template := class_template "Foo" 1.
Definition Bar : template := class_template "Bar" 1.

(** ** The documented examples *)

Example invert_doc :
  invert (TypePair int double) = TypePair double int.
Proof. reflexivity. Qed.

Example apply_doc_plain :
  apply std_pair None None (TypePair int bool_)
  = Resolved (class_spec "std::pair" [int; bool_]).
Proof. reflexivity. Qed.

Example apply_doc_first :
  apply std_pair (Some Foo) None (TypePair int bool_)
  = Resolved (class_spec "std::pair" [class_spec "Foo" [int]; bool_]).
Proof. reflexivity. Qed.

Example apply_doc_both :
  apply std_pair (Some Foo) (Some Bar) (TypePair int bool_)
  = Resolved (class_spec "std::pair"
                [class_spec "Foo" [int]; class_spec "Bar" [bool_]]).
Proof. reflexivity. Qed.

Example transform_doc_both :
  transform (Some Foo) (Some Bar) (TypePair int bool_)
  = Resolved (TypePair (class_spec "Foo" [int]) (class_spec "Bar" [bool_])).
Proof. reflexivity. Qed.

Example transform_doc_first :
  transform (Some Foo) None (TypePair int bool_)
  = Resolved (TypePair (class_spec "Foo" [int]) bool_).
Proof. reflexivity. Qed.

Example transform_doc_none :
  transform None None (TypePair int bool_) = Resolved (TypePair int bool_).
Proof. reflexivity. Qed.

Example type_pair_from_doc_both :
  type_pair_from_type (Some Foo) (Some Bar) int
  = Resolved (TypePair (class_spec "Foo" [int]) (class_spec "Bar" [int])).
Proof. reflexivity. Qed.

Example type_pair_from_doc_first :
  type_pair_from_type (Some Foo) None int
  = Resolved (TypePair (class_spec "Foo" [int]) int).
Proof. reflexivity. Qed.

Example type_pair_from_doc_none :
  type_pair_from_type None None int = Resolved (TypePair int int).
Proof. reflexivity. Qed.

(** ** Further evaluations *)

Example type_get_traits_0 :
  type_get_traits (TypePair int double) 0 = Resolved int.
Proof. reflexivity. Qed.

Example type_get_traits_1 :
  type_get_traits (TypePair int double) 1 = Resolved double.
Proof. reflexivity. Qed.

Example type_get_traits_2 :
  type_get_traits (TypePair int double) 2
  = Rejected (static_assert_failed "index out of bounds").
Proof. reflexivity. Qed.

Example nested_pair :
  transform None (Some (fun args => Resolved (as_type (TypePair int int))))
    (TypePair bool_ double)
  = Resolved (TypePair bool_ (class_spec "fatal::type_pair" [int; int])).
Proof. reflexivity. Qed.

(** ** Helper lemmas *)

Lemma bind_resolved {A B : Type} (c : compiled A) (k : A -> compiled B) (a : A) :
  c = Resolved a -> bind c k = k a.
Proof. intros ->. reflexivity. Qed.

Lemma bind_rejected_inv {A B : Type} (c : compiled A) (k : A -> compiled B)
    (d : diagnostic) :
  bind c k = Rejected d ->
  c = Rejected d \/ exists a, c = Resolved a /\ k a = Rejected d.
Proof.
  destruct c as [a | d']; simpl; intros H.
  - right. exists a. split; [reflexivity | exact H].
  - left. injection H as ->. reflexivity.
Qed.

Lemma type_pair_eta (p : type_pair) : TypePair (TFirst p) (TSecond p) = p.
Proof. destruct p; reflexivity. Qed.

Lemma as_type_injective (p q : type_pair) : as_type p = as_type q -> p = q.
Proof.
  destruct p, q; unfold as_type; simpl; intros H.
  injection H as -> ->. reflexivity.
Qed.

Lemma identity_transform_unary (T : cpp_type) :
  identity_transform [T] = Resolved T.
Proof. reflexivity. Qed.

Lemma slots_rejected_iff {A : Type} (F G : template) (x y : cpp_type)
    (k : cpp_type -> cpp_type -> compiled A) (d : diagnostic) :
  (a <- F [x] ;; b <- G [y] ;; k a b) = Rejected d
  <-> F [x] = Rejected d
      \/ (exists a, F [x] = Resolved a /\ G [y] = Rejected d)
      \/ (exists a b, F [x] = Resolved a /\ G [y] = Resolved b
                      /\ k a b = Rejected d).
Proof.
  destruct (F [x]) as [a | d1]; simpl.
  - destruct (G [y]) as [b | d2]; simpl.
    + split.
      * intros H. right; right. exists a, b. repeat split. exact H.
      * intros [H | [[a' [_ H]] | [a' [b' [Ha [Hb H]]]]]]; try discriminate.
        injection Ha as <-. injection Hb as <-. exact H.
    + split.
      * intros H. injection H as ->. right; left. exists a.
        split; reflexivity.
      * intros [H | [[a' [_ H]] | [a' [b' [_ [H _]]]]]]; try discriminate.
        injection H as ->. reflexivity.
  - split.
    + intros H. injection H as ->. left. reflexivity.
    + intros [H | [[a' [H _]] | [a' [b' [H _]]]]]; try discriminate.
      injection H as ->. reflexivity.
Qed.

Lemma static_assert_holds (cond : bool) (message : string) :
  static_assert cond message = Resolved tt <-> cond = true.
Proof.
  destruct cond; simpl; split; intros H; try reflexivity; discriminate.
Qed.

(** ** Indexed selection *)

(** C1. Selecting slot [Index] of a [type_pair] through [type_get_traits]
    resolves to a type exactly when [Index] is 0 or 1; an index of 2 or
    more is refused by the static assertion, with the diagnostic
    "index out of bounds", and no type is produced for it. *)
Theorem type_get_traits_in_bounds (p : type_pair) (Index : N) :
  ((exists t, type_get_traits p Index = Resolved t)
     <-> (Index = 0 \/ Index = 1)%N)
  /\ ((2 <= Index)%N ->
      type_get_traits p Index
        = Rejected (static_assert_failed "index out of bounds")
      /\ forall t, type_get_traits p Index <> Resolved t).
Proof.
  unfold type_get_traits, static_assert.
  destruct (N.ltb_spec Index 2) as [Hlt | Hge]; simpl.
  - split.
    + split; [intros _; lia | intros _; eexists; reflexivity].
    + intros H. lia.
  - split.
    + split; [intros [t H]; discriminate | intros H; lia].
    + intros _. split; [reflexivity | intros t H; discriminate].
Qed.

Lemma type_get_traits_in_bounds_witness :
  ((exists t, type_get_traits (TypePair int bool_) 7 = Resolved t)
     <-> (7 = 0 \/ 7 = 1)%N)
  /\ ((2 <= 7)%N ->
      type_get_traits (TypePair int bool_) 7
        = Rejected (static_assert_failed "index out of bounds")
      /\ forall t, type_get_traits (TypePair int bool_) 7 <> Resolved t).
Proof. exact (type_get_traits_in_bounds (TypePair int bool_) 7). Defined.

(** C5. [type_pair<A, B>] exposes [first] equal to [A] and [second] equal
    to [B]; both are type aliases. Selection with index 0 yields [first]
    and with index 1 yields [second]. *)
Theorem first_second_aliases (A B : cpp_type) :
  first (TypePair A B) = A
  /\ second (TypePair A B) = B
  /\ In ("first", type_alias) type_pair_members
  /\ In ("second", type_alias) type_pair_members
  /\ type_get_traits (TypePair A B) 0 = Resolved (first (TypePair A B))
  /\ type_get_traits (TypePair A B) 1 = Resolved (second (TypePair A B)).
Proof.
  repeat split; simpl; auto.
Qed.

(** ** [invert] *)

(** C2. [type_pair<A, B>::invert] is [type_pair<B, A>]: the [first] and
    [second] slots are exchanged. *)
Theorem invert_swaps (A B : cpp_type) :
  invert (TypePair A B) = TypePair B A
  /\ first (invert (TypePair A B)) = second (TypePair A B)
  /\ second (invert (TypePair A B)) = first (TypePair A B).
Proof. repeat split. Qed.

(** C8. [invert] is an involution: [type_pair<A, B>::invert::invert] is
    [type_pair<A, B>], as a pair and as a type. *)
Theorem invert_involutive (p : type_pair) :
  invert (invert p) = p /\ as_type (invert (invert p)) = as_type p.
Proof.
  assert (H : invert (invert p) = p).
  { unfold invert; simpl. apply type_pair_eta. }
  split; [exact H | rewrite H; reflexivity].
Qed.

(** ** [apply], [transform] and [type_pair_from] *)

(** C3. [type_pair<A, B>::apply<T, F, G>] is [T<F<A>, G<B>>]: each stored
    type goes through its own transform and the two results are the
    template arguments of [T]. Without transforms, [apply<T>] is
    [T<A, B>]. *)
Theorem apply_spec (T F G : template) (A B a b : cpp_type) :
  F [A] = Resolved a ->
  G [B] = Resolved b ->
  apply T (Some F) (Some G) (TypePair A B) = T [a; b]
  /\ apply T None None (TypePair A B) = T [A; B].
Proof.
  intros HF HG. split.
  - unfold apply; simpl. rewrite HF; simpl. rewrite HG; reflexivity.
  - reflexivity.
Qed.

Lemma apply_spec_witness :
  apply std_pair (Some Foo) (Some Bar) (TypePair int bool_)
    = std_pair [class_spec "Foo" [int]; class_spec "Bar" [bool_]]
  /\ apply std_pair None None (TypePair int bool_) = std_pair [int; bool_].
Proof.
  exact (apply_spec std_pair Foo Bar int bool_
           (class_spec "Foo" [int]) (class_spec "Bar" [bool_])
           eq_refl eq_refl).
Defined.

(** C4. [type_pair<A, B>::transform<F, G>] is [type_pair<F<A>, G<B>>]:
    each transform acts on its own slot, and the slot it yields does not
    change when the other slot or the other transform does. *)
Theorem transform_spec (F G : template) (A B a b : cpp_type) :
  F [A] = Resolved a ->
  G [B] = Resolved b ->
  transform (Some F) (Some G) (TypePair A B) = Resolved (TypePair a b)
  /\ (forall (G' : template) (B' b' : cpp_type),
        G' [B'] = Resolved b' ->
        exists q, transform (Some F) (Some G') (TypePair A B') = Resolved q
                  /\ first q = a)
  /\ (forall (F' : template) (A' a' : cpp_type),
        F' [A'] = Resolved a' ->
        exists q, transform (Some F') (Some G) (TypePair A' B) = Resolved q
                  /\ second q = b).
Proof.
  intros HF HG.
  assert (Hgen : forall F0 G0 A0 B0 a0 b0,
             F0 [A0] = Resolved a0 -> G0 [B0] = Resolved b0 ->
             transform (Some F0) (Some G0) (TypePair A0 B0)
               = Resolved (TypePair a0 b0)).
  { intros F0 G0 A0 B0 a0 b0 H1 H2.
    unfold transform; simpl. rewrite H1; simpl. rewrite H2; reflexivity. }
  split; [| split].
  - apply Hgen; assumption.
  - intros G' B' b' HG'. exists (TypePair a b').
    split; [apply Hgen; assumption | reflexivity].
  - intros F' A' a' HF'. exists (TypePair a' b).
    split; [apply Hgen; assumption | reflexivity].
Qed.

Lemma transform_spec_witness :
  transform (Some Foo) (Some Bar) (TypePair int bool_)
    = Resolved (TypePair (class_spec "Foo" [int]) (class_spec "Bar" [bool_]))
  /\ (forall (G' : template) (B' b' : cpp_type),
        G' [B'] = Resolved b' ->
        exists q, transform (Some Foo) (Some G') (TypePair int B') = Resolved q
                  /\ first q = class_spec "Foo" [int])
  /\ (forall (F' : template) (A' a' : cpp_type),
        F' [A'] = Resolved a' ->
        exists q, transform (Some F') (Some Bar) (TypePair A' bool_) = Resolved q
                  /\ second q = class_spec "Bar" [bool_]).
Proof.
  exact (transform_spec Foo Bar int bool_
           (class_spec "Foo" [int]) (class_spec "Bar" [bool_])
           eq_refl eq_refl).
Defined.

(** C9. Without transforms [transform] is the identity:
    [type_pair<A, B>::transform<>] is [type_pair<A, B>]. *)
Theorem transform_default_identity (p : type_pair) :
  transform None None p = Resolved p.
Proof.
  unfold transform, first, second; simpl.
  rewrite type_pair_eta. reflexivity.
Qed.

(** C10. [type_pair_from<F, G>::type<U>] is [type_pair<F<U>, G<U>>];
    without transforms, [type_pair_from<>::type<U>] is [type_pair<U, U>]:
    the one input type fills both slots. *)
Theorem type_pair_from_spec (F G : template) (U a b : cpp_type) :
  F [U] = Resolved a ->
  G [U] = Resolved b ->
  type_pair_from_type (Some F) (Some G) U = Resolved (TypePair a b)
  /\ type_pair_from_type None None U = Resolved (TypePair U U).
Proof.
  intros HF HG. split.
  - unfold type_pair_from_type; simpl. rewrite HF; simpl. rewrite HG; reflexivity.
  - reflexivity.
Qed.

Lemma type_pair_from_spec_witness :
  type_pair_from_type (Some Foo) (Some Bar) int
    = Resolved (TypePair (class_spec "Foo" [int]) (class_spec "Bar" [int]))
  /\ type_pair_from_type None None int = Resolved (TypePair int int).
Proof.
  exact (type_pair_from_spec Foo Bar int
           (class_spec "Foo" [int]) (class_spec "Bar" [int])
           eq_refl eq_refl).
Defined.

(** ** Totality *)

(** [std::pair] takes two types. Passed as a transform it is named with
    one, [std::pair<int>], which the compiler refuses; [apply],
    [transform] and [type_pair_from::type] then name no type. *)
Lemma unfit_transform_refused :
  apply std_pair (Some std_pair) None (TypePair int bool_)
    = Rejected invalid_template_id
  /\ transform (Some std_pair) None (TypePair int bool_)
    = Rejected invalid_template_id
  /\ type_pair_from_type (Some std_pair) None int
    = Rejected invalid_template_id
  /\ ~ (forall (T : template) (F G : option template) (p : type_pair)
          (U : cpp_type),
          (exists t, apply T F G p = Resolved t)
          /\ (exists q, transform F G p = Resolved q)
          /\ (exists q, type_pair_from_type F G U = Resolved q)).
Proof.
  repeat split.
  intros H.
  destruct (H std_pair (Some std_pair) None (TypePair int bool_) int)
    as [_ [[q Hq] _]].
  discriminate Hq.
Qed.

(** C6 (amended). Apart from the bounds-checked selection, the operations
    of [type_pair] raise no failure of their own. [first], [second] and
    [invert] name a type for every pair: the first argument, the second,
    and the pair of the two in the other order. [transform] and
    [type_pair_from::type] resolve whenever each transform resolves on
    the type passed to it, and [apply] whenever moreover [T] resolves on
    the two images. They are refused exactly when a template they are
    given refuses the arguments passed to it, and the diagnostic is that
    of the first one to refuse, in the order first transform, second
    transform, [T]. *)
Theorem operations_total (T : template) (F G : option template)
    (p : type_pair) (U : cpp_type) :
  (first p = TFirst p /\ second p = TSecond p
   /\ invert p = TypePair (TSecond p) (TFirst p))
  /\ (forall a b,
        or_identity F [first p] = Resolved a ->
        or_identity G [second p] = Resolved b ->
        transform F G p = Resolved (TypePair a b))
  /\ (forall a b t,
        or_identity F [first p] = Resolved a ->
        or_identity G [second p] = Resolved b ->
        T [a; b] = Resolved t ->
        apply T F G p = Resolved t)
  /\ (forall a b,
        or_identity F [U] = Resolved a ->
        or_identity G [U] = Resolved b ->
        type_pair_from_type F G U = Resolved (TypePair a b))
  /\ (forall d,
        transform F G p = Rejected d
        <-> or_identity F [first p] = Rejected d
            \/ (exists a, or_identity F [first p] = Resolved a
                          /\ or_identity G [second p] = Rejected d))
  /\ (forall d,
        apply T F G p = Rejected d
        <-> or_identity F [first p] = Rejected d
            \/ (exists a, or_identity F [first p] = Resolved a
                          /\ or_identity G [second p] = Rejected d)
            \/ (exists a b, or_identity F [first p] = Resolved a
                            /\ or_identity G [second p] = Resolved b
                            /\ T [a; b] = Rejected d))
  /\ (forall d,
        type_pair_from_type F G U = Rejected d
        <-> or_identity F [U] = Rejected d
            \/ (exists a, or_identity F [U] = Resolved a
                          /\ or_identity G [U] = Rejected d)).
Proof.
  split; [repeat split |].
  split; [| split; [| split]].
  - intros a b Ha Hb. unfold transform. rewrite Ha; simpl. rewrite Hb; reflexivity.
  - intros a b t Ha Hb Ht. unfold apply. rewrite Ha; simpl. rewrite Hb; exact Ht.
  - intros a b Ha Hb. unfold type_pair_from_type.
    rewrite Ha; simpl. rewrite Hb; reflexivity.
  - split; [| split]; intros d.
    + unfold transform. rewrite slots_rejected_iff.
      split; [intros [H | [H | [a [b [_ [_ H]]]]]] | intros [H | H]]; auto.
      discriminate H.
    + unfold apply. apply slots_rejected_iff.
    + unfold type_pair_from_type. rewrite slots_rejected_iff.
      split; [intros [H | [H | [a [b [_ [_ H]]]]]] | intros [H | H]]; auto.
      discriminate H.
Qed.

Lemma operations_total_witness :
  transform None (Some Foo) (TypePair int bool_)
    = Resolved (TypePair int (class_spec "Foo" [bool_]))
  /\ apply std_pair None (Some Foo) (TypePair int bool_)
    = Resolved (class_spec "std::pair" [int; class_spec "Foo" [bool_]])
  /\ type_pair_from_type None (Some Foo) double
    = Resolved (TypePair double (class_spec "Foo" [double]))
  /\ apply std_pair None (Some std_pair) (TypePair int bool_)
    = Rejected invalid_template_id.
Proof.
  destruct (operations_total std_pair None (Some Foo) (TypePair int bool_) double)
    as [_ [Htransform [Happly [Hfrom _]]]].
  destruct (operations_total std_pair None (Some std_pair)
              (TypePair int bool_) double)
    as [_ [_ [_ [_ [_ [Hrefused _]]]]]].
  split; [| split; [| split]].
  - apply Htransform; reflexivity.
  - apply (Happly int (class_spec "Foo" [bool_])); reflexivity.
  - apply Hfrom; reflexivity.
  - apply Hrefused. right; left. exists int. split; reflexivity.
Defined.

(** * How the operations compose *)

Lemma slots_resolved_iff (F G : template) (x y : cpp_type) (q : type_pair) :
  (a <- F [x] ;; b <- G [y] ;; Resolved (TypePair a b)) = Resolved q
  <-> F [x] = Resolved (TFirst q) /\ G [y] = Resolved (TSecond q).
Proof.
  destruct (F [x]) as [a | d]; simpl.
  - destruct (G [y]) as [b | d]; simpl.
    + split.
      * intros H. injection H as <-. split; reflexivity.
      * intros [Ha Hb]. injection Ha as ->. injection Hb as ->.
        rewrite type_pair_eta. reflexivity.
    + split; [discriminate | intros [_ H]; discriminate].
  - split; [discriminate | intros [H _]; discriminate].
Qed.

Lemma transform_slots (F G : option template) (p q : type_pair) :
  transform F G p = Resolved q
  <-> or_identity F [first p] = Resolved (first q)
      /\ or_identity G [second p] = Resolved (second q).
Proof. unfold transform. apply slots_resolved_iff. Qed.

(** X1. [transform<F, G>] resolves exactly when both transforms resolve on
    their own slot, and then the slots of the result are the two images;
    [apply<T, F, G>] resolves exactly when moreover [T] takes the two
    images. *)
Theorem resolved_iff (T : template) (F G : option template)
    (p q : type_pair) (t : cpp_type) :
  (transform F G p = Resolved q
   <-> or_identity F [first p] = Resolved (first q)
       /\ or_identity G [second p] = Resolved (second q))
  /\ (apply T F G p = Resolved t
      <-> exists a b, or_identity F [first p] = Resolved a
                      /\ or_identity G [second p] = Resolved b
                      /\ T [a; b] = Resolved t).
Proof.
  split; [apply transform_slots |].
  unfold apply.
  destruct (or_identity F [first p]) as [a | d]; simpl.
  - destruct (or_identity G [second p]) as [b | d]; simpl.
    + split.
      * intros H. exists a, b. repeat split. exact H.
      * intros [a' [b' [Ha [Hb H]]]].
        injection Ha as <-. injection Hb as <-. exact H.
    + split; [discriminate | intros [a' [b' [_ [Hb _]]]]; discriminate].
  - split; [discriminate | intros [a' [b' [Ha _]]]; discriminate].
Qed.

(** X2. [apply<T, F, G>] is [transform<F, G>] followed by [apply<T>], with
    the same diagnostic when it is refused. *)
Theorem apply_via_transform (T : template) (F G : option template)
    (p : type_pair) :
  apply T F G p = (q <- transform F G p ;; apply T None None q).
Proof.
  unfold apply, transform.
  destruct (or_identity F [first p]) as [a | d]; simpl; [| reflexivity].
  destruct (or_identity G [second p]) as [b | d]; simpl; reflexivity.
Qed.

(** X3. Passing [type_pair] itself as the target of [apply] gives
    [transform]: [apply<type_pair, F, G>] is the type
    [transform<F, G>]. *)
Theorem apply_type_pair_is_transform (F G : option template) (p : type_pair) :
  apply type_pair_template F G p
  = (q <- transform F G p ;; Resolved (as_type q)).
Proof.
  unfold apply, transform.
  destruct (or_identity F [first p]) as [a | d]; simpl; [| reflexivity].
  destruct (or_identity G [second p]) as [b | d]; simpl; reflexivity.
Qed.

(** X4. [invert] commutes with [transform] when the transforms are swapped
    too: [invert::transform<F, G>] resolves to [q] exactly when
    [transform<G, F>] resolves to [q::invert]. *)
Theorem transform_invert (F G : option template) (p q : type_pair) :
  transform F G (invert p) = Resolved q
  <-> transform G F p = Resolved (invert q).
Proof.
  rewrite !transform_slots. unfold invert, first, second; simpl.
  tauto.
Qed.

(** X5. Swapping the transforms of [type_pair_from] inverts the pair it
    builds. *)
Theorem type_pair_from_invert (F G : option template) (U : cpp_type)
    (q : type_pair) :
  type_pair_from_type F G U = Resolved q
  <-> type_pair_from_type G F U = Resolved (invert q).
Proof.
  unfold type_pair_from_type. rewrite !slots_resolved_iff; simpl. tauto.
Qed.

(** X6. Two [transform]s in a row resolve to the same pair as one
    [transform] with the transforms composed slot by slot. *)
Theorem transform_chain (F G F' G' : option template) (p r : type_pair) :
  (q <- transform F G p ;; transform F' G' q) = Resolved r
  <-> transform
        (Some (compose_transform (or_identity F') (or_identity F)))
        (Some (compose_transform (or_identity G') (or_identity G)))
        p = Resolved r.
Proof.
  rewrite (transform_slots (Some _) (Some _)).
  unfold compose_transform; simpl.
  destruct (transform F G p) as [q | d] eqn:Hq; simpl.
  - apply transform_slots in Hq as [Ha Hb].
    rewrite Ha, Hb; simpl. apply transform_slots.
  - split; [discriminate |].
    intros [Ha Hb]. exfalso.
    destruct (or_identity F [first p]) as [a | d1] eqn:Ea; [| discriminate].
    destruct (or_identity G [second p]) as [b | d2] eqn:Eb; [| discriminate].
    assert (H : transform F G p = Resolved (TypePair a b)).
    { apply transform_slots. split; assumption. }
    congruence.
Qed.

(** X7. [transform<>] is a unit for chaining: before or after
    [transform<F, G>] it changes nothing, the diagnostic of a refusal
    included. *)
Theorem transform_default_unit (F G : option template) (p : type_pair) :
  (q <- transform None None p ;; transform F G q) = transform F G p
  /\ (q <- transform F G p ;; transform None None q) = transform F G p.
Proof.
  split.
  - reflexivity.
  - unfold transform.
    destruct (or_identity F [first p]) as [a | d]; simpl; [| reflexivity].
    destruct (or_identity G [second p]) as [b | d]; simpl; reflexivity.
Qed.

(** * Selection, inversion and construction *)

(** X8. Selecting from the inverted pair is selecting the other slot: index 0
    of [invert] is index 1 of the pair and conversely; an index out of
    bounds is refused on both alike. *)
Theorem type_get_traits_invert (p : type_pair) (Index : N) :
  type_get_traits (invert p) Index
  = type_get_traits p (if (Index <? 2)%N then (1 - Index)%N else Index).
Proof.
  unfold type_get_traits, static_assert.
  destruct (N.ltb_spec Index 2) as [Hlt | Hge].
  - assert (H : (Index = 0 \/ Index = 1)%N) by lia.
    destruct H as [-> | ->]; reflexivity.
  - destruct (N.ltb_spec Index 2) as [Hlt | _]; [lia | reflexivity].
Qed.

(** X9. A pair is rebuilt from its two selections: slots 0 and 1, in this
    order, give back the pair, and in the other order its [invert]. *)
Theorem pair_from_selections (p : type_pair) :
  (a <- type_get_traits p 0 ;; b <- type_get_traits p 1 ;;
   Resolved (TypePair a b)) = Resolved p
  /\ (a <- type_get_traits p 1 ;; b <- type_get_traits p 0 ;;
      Resolved (TypePair a b)) = Resolved (invert p).
Proof.
  split.
  - simpl. unfold conditional. rewrite type_pair_eta. reflexivity.
  - reflexivity.
Qed.

(** X10. The pairs [invert] leaves unchanged are those with equal slots, which
    are exactly the pairs [type_pair_from<>::type] builds. *)
Theorem invert_fixed_points (q : type_pair) :
  (invert q = q <-> first q = second q)
  /\ (invert q = q <-> exists U, type_pair_from_type None None U = Resolved q).
Proof.
  destruct q as [A B]. unfold invert, first, second; simpl.
  split; split.
  - intros H. injection H as H _. symmetry. exact H.
  - intros ->. reflexivity.
  - intros H. injection H as -> _. exists A. reflexivity.
  - intros [U H]. injection H as <- <-. reflexivity.
Qed.

(** X11. Selecting from a transformed pair gives the image of the matching
    slot: index 0 selects [F<first>] and index 1 selects [G<second>]. *)
Theorem type_get_traits_transform (F G : option template) (p q : type_pair) :
  transform F G p = Resolved q ->
  type_get_traits q 0 = or_identity F [first p]
  /\ type_get_traits q 1 = or_identity G [second p].
Proof.
  intros H. apply transform_slots in H as [-> ->].
  split; reflexivity.
Qed.

Lemma type_get_traits_transform_witness :
  type_get_traits (TypePair (class_spec "Foo" [int]) bool_) 0
    = or_identity (Some Foo) [first (TypePair int bool_)]
  /\ type_get_traits (TypePair (class_spec "Foo" [int]) bool_) 1
    = or_identity None [second (TypePair int bool_)].
Proof.
  exact (type_get_traits_transform (Some Foo) None (TypePair int bool_)
           (TypePair (class_spec "Foo" [int]) bool_) eq_refl).
Defined.
